(** * NetFlow version 7 (Catalyst 5000) records: packet_v7.go

    A shallow embedding of [packet_v7.go] and of the helpers it calls
    (the primitive field readers, the address type and the generic struct
    codec), followed by the properties of the version-7 flow record and
    header.

    Conventions.  Go's [uint8], [uint16] and [uint32] are integers in [Z];
    a value of such a type lies in [0, 2^w), which [valid_record] states for
    a whole record.  Bytes on the wire are [byte]s.  A method with a pointer
    receiver returns the receiver after the call next to its Go result. *)

From Stdlib Require Import ZArith List String Ascii Bool Lia.
From Stdlib Require Import DecimalString.
From coqutil Require Import Byte Datatypes.RecordSetters Z.bitblast.
Import ListNotations.
Import TriangleBracketNotations.

Local Open Scope Z_scope.

(** ** Errors and the byte source *)

(** The two error kinds of a field read: the source ended before the field
    was complete, or the source itself reported a fault (with its cause). *)
Inductive error : Type :=
| ShortRead
| UnderlyingIOError (cause : string).

(** An [io.Reader] as one sequential consumer sees it: the bytes it still
    delivers, and how it ends once they are used up, with a clean end of
    stream ([None]) or with a fault of the source ([Some cause]). *)
Record Reader : Type := mkReader {
  pending : list byte;
  fault : option string
}.

(** [bytes.NewReader(b)]: a source over a byte slice, which ends cleanly. *)
Definition NewReader (b : list byte) : Reader :=
  {| pending := b; fault := None |}.

(** What a read that cannot be completed reports. *)
Definition readError (h : Reader) : error :=
  match fault h with
  | Some cause => UnderlyingIOError cause
  | None => ShortRead
  end.

(** The source after a read that could not be completed: what was left (less
    than the width asked for) has been consumed. *)
Definition drained (h : Reader) : Reader :=
  {| pending := []; fault := fault h |}.

(** The source after a completed read. *)
Definition advanced (h : Reader) (rest : list byte) : Reader :=
  {| pending := rest; fault := fault h |}.

(** ** Big-endian integers *)

(** [binary.BigEndian.Uint16] and [binary.BigEndian.Uint32]. *)
Definition beUint16 (b0 b1 : byte) : Z :=
  Z.lor (byte.unsigned b1) (Z.shiftl (byte.unsigned b0) 8).

Definition beUint32 (b0 b1 b2 b3 : byte) : Z :=
  Z.lor (Z.lor (Z.lor (byte.unsigned b3) (Z.shiftl (byte.unsigned b2) 8))
               (Z.shiftl (byte.unsigned b1) 16))
        (Z.shiftl (byte.unsigned b0) 24).

(** [binary.BigEndian.PutUint16] and [binary.BigEndian.PutUint32]; the
    conversion [byte(v >> k)] keeps the low eight bits. *)
Definition putUint16 (v : Z) : list byte :=
  [byte.of_Z (Z.shiftr v 8); byte.of_Z v].

Definition putUint32 (v : Z) : list byte :=
  [byte.of_Z (Z.shiftr v 24); byte.of_Z (Z.shiftr v 16);
   byte.of_Z (Z.shiftr v 8); byte.of_Z v].

(** ** The address type *)

(** Modelled from the spec: the type [LongIPv4] is declared outside
    [packet_v7.go]; an address is four raw bytes in network order. *)
Record LongIPv4 : Type := mkLongIPv4 {
  ip0 : byte;
  ip1 : byte;
  ip2 : byte;
  ip3 : byte
}.

Definition zeroIPv4 : LongIPv4 :=
  mkLongIPv4 Byte.x00 Byte.x00 Byte.x00 Byte.x00.

(** Decimal rendering of an integer, as the verb [%d] prints it. *)
Definition decimal (n : Z) : string :=
  NilZero.string_of_int (Z.to_int n).

(** Modelled from the spec: [LongIPv4.String] is declared outside
    [packet_v7.go]; the canonical form is [a.b.c.d], built from the four
    bytes in order. *)
Definition LongIPv4_String (a : LongIPv4) : string :=
  (decimal (byte.unsigned (ip0 a)) ++ "." ++
   decimal (byte.unsigned (ip1 a)) ++ "." ++
   decimal (byte.unsigned (ip2 a)) ++ "." ++
   decimal (byte.unsigned (ip3 a)))%string.

(** ** The primitive field readers *)

(** The Go result [(value, err)] of a read, and the source after it. *)
Definition read (A : Type) : Type := Reader -> A * option error * Reader.

(** Modelled from the spec: [readUint8], [readUint16], [readUint32] and
    [readLongIPv4] are declared outside [packet_v7.go].  Each reads exactly
    its width, big-endian; when fewer bytes are left it fails with the
    short-read or I/O error of the source and returns no partial value (the
    zero value of its Go result type). *)
Definition readUint8 : read Z := fun h =>
  match pending h with
  | b0 :: rest => (byte.unsigned b0, None, advanced h rest)
  | _ => (0, Some (readError h), drained h)
  end.

Definition readUint16 : read Z := fun h =>
  match pending h with
  | b0 :: b1 :: rest => (beUint16 b0 b1, None, advanced h rest)
  | _ => (0, Some (readError h), drained h)
  end.

Definition readUint32 : read Z := fun h =>
  match pending h with
  | b0 :: b1 :: b2 :: b3 :: rest => (beUint32 b0 b1 b2 b3, None, advanced h rest)
  | _ => (0, Some (readError h), drained h)
  end.

Definition readLongIPv4 : read LongIPv4 := fun h =>
  match pending h with
  | b0 :: b1 :: b2 :: b3 :: rest => (mkLongIPv4 b0 b1 b2 b3, None, advanced h rest)
  | _ => (zeroIPv4, Some (readError h), drained h)
  end.

(** ** The version-7 flow record *)

Record V7FlowRecord : Type := mkV7FlowRecord {
  SrcAddr : LongIPv4;
  DstAddr : LongIPv4;
  NextHop : LongIPv4;
  Input : Z;
  Output : Z;
  Packets : Z;
  Octets : Z;
  First : Z;
  Last : Z;
  SrcPort : Z;
  DstPort : Z;
  Pad0 : Z;
  TCPFlags : Z;
  Protocol : Z;
  ToS : Z;
  SrcAS : Z;
  DstAS : Z;
  SrcMask : Z;
  DstMask : Z;
  Flags : Z;
  RouterSC : LongIPv4
}.

(** The zero value of the struct, [V7FlowRecord{}]. *)
Definition zeroRecord : V7FlowRecord :=
  mkV7FlowRecord zeroIPv4 zeroIPv4 zeroIPv4 0 0 0 0 0 0 0 0 0 0 0 0 0 0 0 0 0 zeroIPv4.

(** ** Unmarshal *)

(** The state a decode threads: the receiver [r] and the source [h]; its
    outcome is the receiver and the source after it, and the Go result
    ([None] is [nil]). *)
Definition decode : Type :=
  V7FlowRecord -> Reader -> V7FlowRecord * Reader * option error.

(** [r.F, err = rd(h)]: the field is assigned whatever the read returned. *)
Definition fieldRead {A : Type} (set : A -> V7FlowRecord -> V7FlowRecord)
    (rd : read A) : decode :=
  fun r h =>
    let '(v, err, h') := rd h in
    (set v r, h', err).

(** [if d; err != nil { return err }] followed by [k]. *)
Definition andThen (d k : decode) : decode :=
  fun r h =>
    match d r h with
    | (r', h', Some e) => (r', h', Some e)
    | (r', h', None) => k r' h'
    end.

(** [return nil]. *)
Definition return_nil : decode := fun r h => (r, h, None).

Notation "F '<~' rd ';;' k" :=
  (andThen (fieldRead (fun v r => r <| F := v |>) rd) k)
  (at level 61, rd at level 0, right associativity,
   format "'[v' F  '<~'  rd  ';;' '/' k ']'").

Definition Unmarshal : decode :=
  SrcAddr <~ readLongIPv4 ;;
  DstAddr <~ readLongIPv4 ;;
  NextHop <~ readLongIPv4 ;;
  Input <~ readUint16 ;;
  Output <~ readUint16 ;;
  Packets <~ readUint32 ;;
  Octets <~ readUint32 ;;
  First <~ readUint32 ;;
  Last <~ readUint32 ;;
  SrcPort <~ readUint16 ;;
  DstPort <~ readUint16 ;;
  Pad0 <~ readUint16 ;;
  Protocol <~ readUint8 ;;
  ToS <~ readUint8 ;;
  SrcAS <~ readUint16 ;;
  DstAS <~ readUint16 ;;
  SrcMask <~ readUint8 ;;
  DstMask <~ readUint8 ;;
  Flags <~ readUint16 ;;
  RouterSC <~ readLongIPv4 ;;
  return_nil.


(** ** The generic struct codec *)

(** Modelled from the spec: [structPack] and [structLen] are declared outside
    [packet_v7.go].  They work on the layout of a struct, its fields in
    declaration order, each of one of the four supported kinds; a field is
    emitted as an unsigned big-endian integer of its declared width, an
    address as its four raw bytes. *)
Inductive field : Type :=
| FUint8 (v : Z)
| FUint16 (v : Z)
| FUint32 (v : Z)
| FLongIPv4 (a : LongIPv4).

Definition fieldWidth (f : field) : Z :=
  match f with
  | FUint8 _ => 1
  | FUint16 _ => 2
  | FUint32 _ => 4
  | FLongIPv4 _ => 4
  end.

Definition packField (f : field) : list byte :=
  match f with
  | FUint8 v => [byte.of_Z v]
  | FUint16 v => putUint16 v
  | FUint32 v => putUint32 v
  | FLongIPv4 a => [ip0 a; ip1 a; ip2 a; ip3 a]
  end.

Definition structPack (layout : list (string * field)) : list byte :=
  flat_map (fun nf => packField (snd nf)) layout.

Definition structLen (layout : list (string * field)) : Z :=
  fold_right (fun nf n => fieldWidth (snd nf) + n) 0 layout.

(** The fields of the struct [V7FlowRecord], as declared. *)
Definition V7FlowRecord_layout (r : V7FlowRecord) : list (string * field) :=
  [ ("SrcAddr", FLongIPv4 (SrcAddr r));
    ("DstAddr", FLongIPv4 (DstAddr r));
    ("NextHop", FLongIPv4 (NextHop r));
    ("Input", FUint16 (Input r));
    ("Output", FUint16 (Output r));
    ("Packets", FUint32 (Packets r));
    ("Octets", FUint32 (Octets r));
    ("First", FUint32 (First r));
    ("Last", FUint32 (Last r));
    ("SrcPort", FUint16 (SrcPort r));
    ("DstPort", FUint16 (DstPort r));
    ("Pad0", FUint16 (Pad0 r));
    ("TCPFlags", FUint8 (TCPFlags r));
    ("Protocol", FUint8 (Protocol r));
    ("ToS", FUint8 (ToS r));
    ("SrcAS", FUint16 (SrcAS r));
    ("DstAS", FUint16 (DstAS r));
    ("SrcMask", FUint8 (SrcMask r));
    ("DstMask", FUint8 (DstMask r));
    ("Flags", FUint16 (Flags r));
    ("RouterSC", FLongIPv4 (RouterSC r)) ]%string.

Definition Bytes (r : V7FlowRecord) : list byte :=
  structPack (V7FlowRecord_layout r).

Definition Len (r : V7FlowRecord) : Z :=
  structLen (V7FlowRecord_layout r).

(** A field holds a value of its Go type. *)
Definition validField (f : field) : bool :=
  match f with
  | FUint8 v => (0 <=? v) && (v <? 2 ^ 8)
  | FUint16 v => (0 <=? v) && (v <? 2 ^ 16)
  | FUint32 v => (0 <=? v) && (v <? 2 ^ 32)
  | FLongIPv4 _ => true
  end.

Definition valid_record (r : V7FlowRecord) : bool :=
  forallb (fun nf => validField (snd nf)) (V7FlowRecord_layout r).

(** ** String *)

(** The operands of [fmt.Sprintf] that [String] passes: a value with a
    [String] method, or an unsigned integer. *)
Inductive operand : Type :=
| Stringer (s : string)
| Unsigned (n : Z).

(** One verb applied to one operand: [%s] calls the [String] method, [%d]
    prints an integer in base ten.  [String] uses no other pairing of verb
    and operand; this model marks one as [%!verb(BADVERB)]. *)
Definition formatVerb (verb : ascii) (x : operand) : string :=
  match x with
  | Stringer s =>
      if Ascii.eqb verb "s" then s
      else ("%!" ++ String verb "(BADVERB)")%string
  | Unsigned n =>
      if Ascii.eqb verb "d" then decimal n
      else ("%!" ++ String verb "(BADVERB)")%string
  end.

(** [fmt.Sprintf], for formats made of plain text and one-letter verbs. *)
Fixpoint Sprintf (format : string) (a : list operand) : string :=
  match format with
  | EmptyString => EmptyString
  | String c rest =>
      if Ascii.eqb c "%" then
        match rest with
        | EmptyString => "%!(NOVERB)"%string
        | String verb rest' =>
            match a with
            | x :: a' => (formatVerb verb x ++ Sprintf rest' a')%string
            | [] => ("%!" ++ String verb "(MISSING)" ++ Sprintf rest' [])%string
            end
        end
      else String c (Sprintf rest a)
  end.

(** [V7FlowRecord.String]; the name [String] is the constructor of
    [string]. *)
Definition String_ (r : V7FlowRecord) : string :=
  Sprintf "%s/%d:%d -> %s/%d:%d"
    [ Stringer (LongIPv4_String (SrcAddr r)); Unsigned (SrcMask r);
      Unsigned (SrcPort r); Stringer (LongIPv4_String (DstAddr r));
      Unsigned (DstMask r); Unsigned (DstPort r) ].

(** ** The version-7 header *)

Section Header.

(** The struct [V1Header] is declared outside [packet_v7.go], which uses
    its field [Version] only; its other fields are kept abstract. *)
Variable V1Fields : Type.

Record V1Header : Type := mkV1Header {
  Version : Z;
  V1Rest : V1Fields
}.

Record V7Header : Type := mkV7Header {
  Base : V1Header;
  FlowSequence : Z;
  Reserved : Z
}.

Definition GetVersion (h : V7Header) : Z :=
  Version (Base h).

(** [h.Version = v], on the embedded struct; the result is the receiver
    after the call. *)
Definition SetVersion (h : V7Header) (v : Z) : V7Header :=
  h <| Base := (Base h) <| Version := v |> |>.

End Header.

Arguments Version {V1Fields} _.
Arguments V1Rest {V1Fields} _.
Arguments Base {V1Fields} _.
Arguments FlowSequence {V1Fields} _.
Arguments Reserved {V1Fields} _.
Arguments GetVersion {V1Fields} h.
Arguments SetVersion {V1Fields} h v.

(** ** Unmarshal as a list of field reads *)

(** One statement of [Unmarshal]: the read it calls and the field it
    assigns. *)
Record fieldStep : Type := mkStep {
  fieldType : Type;
  store : fieldType -> V7FlowRecord -> V7FlowRecord;
  fetch : read fieldType;
  width : nat
}.

Definition runStep (s : fieldStep) : decode :=
  fieldRead (store s) (fetch s).

Definition runSteps (ss : list fieldStep) : decode :=
  fold_right (fun s k => andThen (runStep s) k) return_nil ss.

Notation "F '<~~' rd '@' w" := (mkStep _ (fun v r => r <| F := v |>) rd w)
  (at level 61, rd at level 0, w at level 0).

(** The statements of [Unmarshal], in the order of the source, each with the
    number of bytes its read asks for. *)
Definition V7Steps : list fieldStep :=
  [ SrcAddr <~~ readLongIPv4 @ 4;
    DstAddr <~~ readLongIPv4 @ 4;
    NextHop <~~ readLongIPv4 @ 4;
    Input <~~ readUint16 @ 2;
    Output <~~ readUint16 @ 2;
    Packets <~~ readUint32 @ 4;
    Octets <~~ readUint32 @ 4;
    First <~~ readUint32 @ 4;
    Last <~~ readUint32 @ 4;
    SrcPort <~~ readUint16 @ 2;
    DstPort <~~ readUint16 @ 2;
    Pad0 <~~ readUint16 @ 2;
    Protocol <~~ readUint8 @ 1;
    ToS <~~ readUint8 @ 1;
    SrcAS <~~ readUint16 @ 2;
    DstAS <~~ readUint16 @ 2;
    SrcMask <~~ readUint8 @ 1;
    DstMask <~~ readUint8 @ 1;
    Flags <~~ readUint16 @ 2;
    RouterSC <~~ readLongIPv4 @ 4 ]%nat.

(** A read of width [w]: with [w] bytes or more pending it succeeds and
    consumes exactly [w] of them; with fewer it fails with the error of the
    source and leaves the source drained. *)
Definition readsWidth {A : Type} (w : nat) (rd : read A) : Prop :=
  forall h,
    ((w <= List.length (pending h))%nat ->
       exists v, rd h = (v, None, advanced h (skipn w (pending h)))) /\
    ((List.length (pending h) < w)%nat ->
       exists v, rd h = (v, Some (readError h), drained h)).

(** The bytes a run of reads asks for in all. *)
Definition totalWidth (ss : list fieldStep) : nat :=
  fold_right (fun s n => (width s + n)%nat) 0%nat ss.

(** A statement whose read has the width recorded for it. *)
Definition stepReads (s : fieldStep) : Prop :=
  readsWidth (width s) (fetch s).

(** ** The wire format *)

(** The value of a field of each kind at an offset of a byte sequence. *)
Definition u8At (off : nat) (p : list byte) : Z :=
  byte.unsigned (nth off p Byte.x00).

Definition u16At (off : nat) (p : list byte) : Z :=
  beUint16 (nth off p Byte.x00) (nth (off + 1) p Byte.x00).

Definition u32At (off : nat) (p : list byte) : Z :=
  beUint32 (nth off p Byte.x00) (nth (off + 1) p Byte.x00)
           (nth (off + 2) p Byte.x00) (nth (off + 3) p Byte.x00).

Definition addrAt (off : nat) (p : list byte) : LongIPv4 :=
  mkLongIPv4 (nth off p Byte.x00) (nth (off + 1) p Byte.x00)
             (nth (off + 2) p Byte.x00) (nth (off + 3) p Byte.x00).

(** Follows the spec, not the code: the wire format table of the version-7
    flow record, each field at the offset and of the width the table gives
    it.  [Unmarshal] and [Bytes] are compared with it below. *)
Definition wireRecord (p : list byte) : V7FlowRecord :=
  {| SrcAddr := addrAt 0 p;
     DstAddr := addrAt 4 p;
     NextHop := addrAt 8 p;
     Input := u16At 12 p;
     Output := u16At 14 p;
     Packets := u32At 16 p;
     Octets := u32At 20 p;
     First := u32At 24 p;
     Last := u32At 28 p;
     SrcPort := u16At 32 p;
     DstPort := u16At 34 p;
     Pad0 := u16At 36 p;
     TCPFlags := u8At 38 p;
     Protocol := u8At 39 p;
     ToS := u8At 40 p;
     SrcAS := u16At 41 p;
     DstAS := u16At 43 p;
     SrcMask := u8At 45 p;
     DstMask := u8At 46 p;
     Flags := u16At 47 p;
     RouterSC := addrAt 49 p |}.

(** The record the statements of [Unmarshal] leave when none of its reads
    fails: each assigned field at the offset its read reaches
    ([Unmarshal_success]). *)
Definition unmarshalled (r : V7FlowRecord) (p : list byte) : V7FlowRecord :=
  {| SrcAddr := addrAt 0 p;
     DstAddr := addrAt 4 p;
     NextHop := addrAt 8 p;
     Input := u16At 12 p;
     Output := u16At 14 p;
     Packets := u32At 16 p;
     Octets := u32At 20 p;
     First := u32At 24 p;
     Last := u32At 28 p;
     SrcPort := u16At 32 p;
     DstPort := u16At 34 p;
     Pad0 := u16At 36 p;
     TCPFlags := TCPFlags r;
     Protocol := u8At 38 p;
     ToS := u8At 39 p;
     SrcAS := u16At 40 p;
     DstAS := u16At 42 p;
     SrcMask := u8At 44 p;
     DstMask := u8At 45 p;
     Flags := u16At 46 p;
     RouterSC := addrAt 48 p |}.

(** ** Calls of the codec methods on one record *)

Inductive call : Type :=
| CallLen
| CallBytes.

Inductive result : Type :=
| LenResult (n : Z)
| BytesResult (b : list byte).

(** One method call: its result and the receiver after it. *)
Definition invoke (c : call) (r : V7FlowRecord) : result * V7FlowRecord :=
  match c with
  | CallLen => (LenResult (Len r), r)
  | CallBytes => (BytesResult (Bytes r), r)
  end.

Fixpoint invokeAll (cs : list call) (r : V7FlowRecord) : list result * V7FlowRecord :=
  match cs with
  | [] => ([], r)
  | c :: cs' =>
      let '(x, r1) := invoke c r in
      let '(xs, r2) := invokeAll cs' r1 in
      (x :: xs, r2)
  end.

(** ** Sample data *)

(** A 53-byte stream, zero but for the byte at offset 38, where the wire
    format has the TCP flags. *)
Definition tcpFlagsStream : list byte :=
  repeat Byte.x00 38 ++ [Byte.xff] ++ repeat Byte.x00 14.

(** A record, zero but for its TCP flags. *)
Definition tcpFlagsRecord : V7FlowRecord :=
  zeroRecord <| TCPFlags := 1 |>.

(** The address [192.168.1.1], and a source that ends after it. *)
Definition addr_192_168_1_1 : LongIPv4 :=
  mkLongIPv4 Byte.xc0 Byte.xa8 Byte.x01 Byte.x01.

Definition addr_10_0_0_1 : LongIPv4 :=
  mkLongIPv4 Byte.x0a Byte.x00 Byte.x00 Byte.x01.

Definition oneAddressStream : list byte :=
  [Byte.xc0; Byte.xa8; Byte.x01; Byte.x01].

(** A source that delivers one address and two more bytes, then faults. *)
Definition resetReader : Reader :=
  {| pending := oneAddressStream ++ [Byte.x0a; Byte.x00];
     fault := Some "connection reset"%string |}.

Definition resetReaderAfterAddress : Reader :=
  advanced resetReader [Byte.x0a; Byte.x00].

(** The second statement of [Unmarshal]. *)
Definition dstAddrStep : fieldStep :=
  DstAddr <~~ readLongIPv4 @ 4.

(** The record of the rendering example. *)
Definition webFlow : V7FlowRecord :=
  zeroRecord <| SrcAddr := addr_192_168_1_1 |> <| SrcMask := 24 |>
             <| SrcPort := 80 |> <| DstAddr := addr_10_0_0_1 |>
             <| DstMask := 16 |> <| DstPort := 443 |>.

(** * Properties *)

Lemma Unmarshal_steps : Unmarshal = runSteps V7Steps.
Proof. reflexivity. Qed.

(** ** Runs of field reads *)

Section Runs.

Implicit Types (s : fieldStep) (ss : list fieldStep).
Implicit Types (r : V7FlowRecord) (h : Reader) (e : error).

Lemma runSteps_cons s ss r h :
  runSteps (s :: ss) r h = andThen (runStep s) (runSteps ss) r h.
Proof. reflexivity. Qed.

Lemma runStep_fetch s r h :
  runStep s r h =
  (store s (fst (fst (fetch s h))) r, snd (fetch s h), snd (fst (fetch s h))).
Proof.
  unfold runStep, fieldRead. destruct (fetch s h) as [[v err] h']. reflexivity.
Qed.

Lemma runSteps_app ss1 ss2 r h :
  runSteps (ss1 ++ ss2) r h = andThen (runSteps ss1) (runSteps ss2) r h.
Proof.
  revert r h. induction ss1 as [|s ss1 IH]; intros r h.
  - reflexivity.
  - cbn [app]. unfold andThen at 1. rewrite !runSteps_cons.
    unfold andThen at 1 2.
    destruct (runStep s r h) as [[r1 h1] [e|]]; [reflexivity|].
    rewrite IH. reflexivity.
Qed.


(** Conversely, the first failing read decides the outcome of the run. *)
Lemma runSteps_failure ss1 s ss2 r h r1 h1 v h' e :
  runSteps ss1 r h = (r1, h1, None) ->
  fetch s h1 = (v, Some e, h') ->
  runSteps (ss1 ++ s :: ss2) r h = (store s v r1, h', Some e).
Proof.
  intros H1 H2. rewrite runSteps_app. unfold andThen at 1. rewrite H1.
  rewrite runSteps_cons. unfold andThen. rewrite runStep_fetch, H2.
  reflexivity.
Qed.

(** A property of the receiver that no assignment of the run changes. *)
Lemma runSteps_preserves {B : Type} (get : V7FlowRecord -> B) ss :
  Forall (fun s => forall v r, get (store s v r) = get r) ss ->
  forall r h, get (fst (fst (runSteps ss r h))) = get r.
Proof.
  induction 1 as [|s ss Hs _ IH]; intros r h.
  - reflexivity.
  - rewrite runSteps_cons. unfold andThen. rewrite runStep_fetch.
    destruct (fetch s h) as [[v [e|]] h0]; cbn [fst snd].
    + apply Hs.
    + rewrite IH. apply Hs.
Qed.

End Runs.

(** ** Widths *)

Section Widths.

Ltac by_cases_on_pending :=
  intros [p f]; cbn [pending]; split; intros Hlen;
  destruct p as [|b0 [|b1 [|b2 [|b3 p]]]]; cbn [List.length] in Hlen;
  try lia; eexists; reflexivity.

Lemma readUint8_width : readsWidth 1 readUint8.
Proof. by_cases_on_pending. Qed.

Lemma readUint16_width : readsWidth 2 readUint16.
Proof. by_cases_on_pending. Qed.

Lemma readUint32_width : readsWidth 4 readUint32.
Proof. by_cases_on_pending. Qed.

Lemma readLongIPv4_width : readsWidth 4 readLongIPv4.
Proof. by_cases_on_pending. Qed.

Lemma V7Steps_reads : Forall stepReads V7Steps.
Proof.
  unfold V7Steps.
  repeat (apply Forall_cons;
          [first [exact readUint8_width | exact readUint16_width
                 | exact readUint32_width | exact readLongIPv4_width]|]).
  apply Forall_nil.
Qed.

(** With enough bytes pending every read of a run succeeds, and the run
    consumes exactly the sum of the widths. *)
Lemma runSteps_enough ss :
  Forall stepReads ss ->
  forall r h,
    (totalWidth ss <= List.length (pending h))%nat ->
    exists r',
      runSteps ss r h = (r', advanced h (skipn (totalWidth ss) (pending h)), None).
Proof.
  induction 1 as [|s ss Hs _ IH]; intros r h Hlen.
  - exists r. destruct h; reflexivity.
  - cbn [totalWidth fold_right] in Hlen |- *. fold (totalWidth ss) in Hlen |- *.
    destruct (Hs h) as [Hok _].
    destruct Hok as [v Hv]; [lia|].
    rewrite runSteps_cons. unfold andThen. rewrite runStep_fetch, Hv.
    cbn [fst snd].
    destruct (IH (store s v r) (advanced h (skipn (width s) (pending h)))) as [r' Hr'].
    { cbn [advanced pending]. rewrite length_skipn. lia. }
    exists r'. rewrite Hr'. cbn [advanced pending fault].
    rewrite skipn_skipn, Nat.add_comm. reflexivity.
Qed.

(** With fewer bytes pending than the sum of the widths a run fails with
    the error of the source, which it leaves drained. *)
Lemma runSteps_short ss :
  Forall stepReads ss ->
  forall r h,
    (List.length (pending h) < totalWidth ss)%nat ->
    exists r', runSteps ss r h = (r', drained h, Some (readError h)).
Proof.
  induction 1 as [|s ss Hs _ IH]; intros r h Hlen.
  - cbn in Hlen. lia.
  - cbn [totalWidth fold_right] in Hlen. fold (totalWidth ss) in Hlen.
    rewrite runSteps_cons. unfold andThen. rewrite runStep_fetch.
    destruct (Hs h) as [Hok Hko].
    destruct (Nat.le_gt_cases (width s) (List.length (pending h))) as [Hw|Hw].
    + destruct (Hok Hw) as [v Hv]. rewrite Hv. cbn [fst snd].
      destruct (IH (store s v r) (advanced h (skipn (width s) (pending h)))) as [r' Hr'].
      { cbn [advanced pending]. rewrite length_skipn. lia. }
      exists r'. rewrite Hr'. reflexivity.
    + destruct (Hko Hw) as [v Hv]. rewrite Hv. cbn [fst snd].
      eexists. reflexivity.
Qed.

End Widths.

(** ** Unmarshal on a byte source *)

Section UnmarshalLength.

Lemma totalWidth_V7Steps : totalWidth V7Steps = 52%nat.
Proof. reflexivity. Qed.

(** [Unmarshal] asks for 52 bytes: with 52 or more pending it returns
    [nil] and leaves the rest in the source. *)
Lemma Unmarshal_enough r h :
  (52 <= List.length (pending h))%nat ->
  exists r', Unmarshal r h = (r', advanced h (skipn 52 (pending h)), None).
Proof.
  intros Hlen. rewrite Unmarshal_steps.
  apply (runSteps_enough V7Steps V7Steps_reads r h).
  rewrite totalWidth_V7Steps. exact Hlen.
Qed.

Lemma Unmarshal_short r h :
  (List.length (pending h) < 52)%nat ->
  exists r', Unmarshal r h = (r', drained h, Some (readError h)).
Proof.
  intros Hlen. rewrite Unmarshal_steps.
  apply (runSteps_short V7Steps V7Steps_reads r h).
  rewrite totalWidth_V7Steps. exact Hlen.
Qed.

(** The outcome of a decode in which no read fails, in closed form. *)
Lemma Unmarshal_success r h :
  (52 <= List.length (pending h))%nat ->
  Unmarshal r h =
    (unmarshalled r (pending h), advanced h (skipn 52 (pending h)), None).
Proof.
  destruct h as [p f]. cbn [pending]. intros Hlen.
  do 52 (destruct p as [|? p]; [cbn [List.length] in Hlen; lia|]).
  reflexivity.
Qed.

End UnmarshalLength.

(** ** Encoding against the wire format *)

Section WireFormat.

Lemma u8_of_Z v : 0 <= v < 2 ^ 8 -> byte.unsigned (byte.of_Z v) = v.
Proof.
  intros Hv. rewrite byte.unsigned_of_Z. apply Z.mod_small. exact Hv.
Qed.

Lemma beUint16_putUint16 v :
  0 <= v < 2 ^ 16 ->
  beUint16 (byte.of_Z (Z.shiftr v 8)) (byte.of_Z v) = v.
Proof.
  intros Hv. unfold beUint16. rewrite !byte.unsigned_of_Z. unfold byte.wrap.
  rewrite <- (Z.mod_small v (2 ^ 16)) at 3 by exact Hv.
  rewrite <- !Z.land_ones by lia.
  Z.bitblast.
Qed.

Lemma beUint32_putUint32 v :
  0 <= v < 2 ^ 32 ->
  beUint32 (byte.of_Z (Z.shiftr v 24)) (byte.of_Z (Z.shiftr v 16))
           (byte.of_Z (Z.shiftr v 8)) (byte.of_Z v) = v.
Proof.
  intros Hv. unfold beUint32. rewrite !byte.unsigned_of_Z. unfold byte.wrap.
  rewrite <- (Z.mod_small v (2 ^ 32)) at 5 by exact Hv.
  rewrite <- !Z.land_ones by lia.
  Z.bitblast.
Qed.

Lemma range_of_bools v n :
  (0 <=? v) && (v <? n) = true -> 0 <= v < n.
Proof.
  intros H. apply andb_true_iff in H as [H1 H2].
  apply Z.leb_le in H1. apply Z.ltb_lt in H2. lia.
Qed.

(** [Bytes] writes the wire format: read at the offsets of the table, the
    encoding of a valid record gives the record back, TCP flags included. *)
Lemma wireRecord_Bytes R :
  valid_record R = true -> wireRecord (Bytes R) = R.
Proof.
  destruct R as [sa da nh i o pk oc fi la sp dp pad tf pr tos sas das sm dm fl rsc].
  unfold valid_record, V7FlowRecord_layout.
  cbn [forallb snd validField SrcAddr DstAddr NextHop Input Output Packets
       Octets First Last SrcPort DstPort Pad0 TCPFlags Protocol ToS SrcAS
       DstAS SrcMask DstMask Flags RouterSC].
  rewrite !andb_true_l, andb_true_r. intros Hvalid.
  repeat match goal with
         | H : _ && _ = true |- _ =>
             first [ apply range_of_bools in H
                   | apply andb_true_iff in H as [? H] ]
         end.
  destruct sa, da, nh, rsc.
  unfold wireRecord, u8At, u16At, u32At, addrAt.
  cbn [Bytes structPack V7FlowRecord_layout flat_map packField putUint16
       putUint32 app snd nth Nat.add SrcAddr DstAddr NextHop Input Output
       Packets Octets First Last SrcPort DstPort Pad0 TCPFlags Protocol ToS
       SrcAS DstAS SrcMask DstMask Flags RouterSC ip0 ip1 ip2 ip3].
  rewrite !beUint16_putUint16, !beUint32_putUint32, !u8_of_Z by assumption.
  reflexivity.
Qed.

End WireFormat.

(** ** The decode path *)

(** C1. [Unmarshal] never assigns the field [TCPFlags]: whatever the source
    delivers, the receiver keeps the TCP flags it had.  On the 53-byte stream
    that is zero but for the TCP-flags byte at offset 38, which the wire
    format reads as TCP flags 255 and protocol number 0, [Unmarshal] returns
    [nil], leaves the TCP flags 0, has stored that byte as the protocol
    number, and leaves the last byte of the record in the source. *)
Theorem Unmarshal_skips_TCPFlags :
  (forall r h, TCPFlags (fst (fst (Unmarshal r h))) = TCPFlags r) /\
  wireRecord tcpFlagsStream = zeroRecord <| TCPFlags := 255 |> /\
  Unmarshal zeroRecord (NewReader tcpFlagsStream) =
    (zeroRecord <| Protocol := 255 |>, NewReader [Byte.x00], None).
Proof.
  split; [|split].
  - intros r h. rewrite Unmarshal_steps.
    apply (runSteps_preserves TCPFlags).
    unfold V7Steps. repeat (apply Forall_cons; [intros v r0; reflexivity|]).
    apply Forall_nil.
  - vm_compute. reflexivity.
  - vm_compute. reflexivity.
Qed.

(** C2. A stream of exactly 52 bytes, one less than the record, decodes
    without error: [Unmarshal] returns [nil] and has consumed all of it. *)
Theorem Unmarshal_accepts_52_bytes :
  forall r b,
    List.length b = 52%nat ->
    exists r', Unmarshal r (NewReader b) = (r', NewReader [], None).
Proof.
  intros r b Hlen.
  destruct (Unmarshal_enough r (NewReader b)) as [r' Hr'].
  { cbn [NewReader pending]. lia. }
  exists r'. rewrite Hr'. cbn [NewReader pending advanced fault].
  rewrite skipn_all2 by lia. reflexivity.
Qed.

Lemma Unmarshal_accepts_52_bytes_witness :
  List.length (repeat Byte.x00 52) = 52%nat /\
  exists r',
    Unmarshal zeroRecord (NewReader (repeat Byte.x00 52)) = (r', NewReader [], None).
Proof.
  split; [reflexivity|].
  apply (Unmarshal_accepts_52_bytes zeroRecord (repeat Byte.x00 52)).
  reflexivity.
Defined.

(** A stream that ends before its 52nd byte is refused with [ShortRead]. *)
Lemma Unmarshal_short_read r b :
  (List.length b < 52)%nat ->
  exists r', Unmarshal r (NewReader b) = (r', NewReader [], Some ShortRead).
Proof.
  intros Hlen. exact (Unmarshal_short r (NewReader b) Hlen).
Qed.

(** C6. On an empty stream the first read, of the source address, fails
    with [ShortRead]; [Unmarshal] returns that error and its outcome is the
    outcome of that one statement: no other field is assigned. *)
Theorem Unmarshal_empty_stream :
  forall r,
    readLongIPv4 (NewReader []) = (zeroIPv4, Some ShortRead, NewReader []) /\
    Unmarshal r (NewReader []) =
      fieldRead (fun v r => r <| SrcAddr := v |>) readLongIPv4 r (NewReader []) /\
    Unmarshal r (NewReader []) =
      (r <| SrcAddr := zeroIPv4 |>, NewReader [], Some ShortRead).
Proof.
  intros r. repeat split.
Qed.




(** C9. When the statements of [Unmarshal] before some statement run
    without error and the read of that statement fails, [Unmarshal] returns
    the error of that read as it is, the source stays as that read left it,
    and nothing after the failing assignment is done to the receiver. *)
Theorem Unmarshal_propagates_read_error :
  forall ss1 s ss2 r h r1 h1 v h' e,
    V7Steps = ss1 ++ s :: ss2 ->
    runSteps ss1 r h = (r1, h1, None) ->
    fetch s h1 = (v, Some e, h') ->
    Unmarshal r h = (store s v r1, h', Some e).
Proof.
  intros ss1 s ss2 r h r1 h1 v h' e Hsplit Hbefore Hfail.
  rewrite Unmarshal_steps, Hsplit.
  exact (runSteps_failure ss1 s ss2 r h r1 h1 v h' e Hbefore Hfail).
Qed.

Lemma Unmarshal_propagates_read_error_witness :
  V7Steps = firstn 1 V7Steps ++ dstAddrStep :: skipn 2 V7Steps /\
  runSteps (firstn 1 V7Steps) zeroRecord resetReader =
    (zeroRecord <| SrcAddr := addr_192_168_1_1 |>, resetReaderAfterAddress, None) /\
  fetch dstAddrStep resetReaderAfterAddress =
    (zeroIPv4, Some (UnderlyingIOError "connection reset"), drained resetReader) /\
  Unmarshal zeroRecord resetReader =
    (store dstAddrStep zeroIPv4 (zeroRecord <| SrcAddr := addr_192_168_1_1 |>),
     drained resetReader, Some (UnderlyingIOError "connection reset")).
Proof.
  split; [reflexivity|]. split; [reflexivity|]. split; [reflexivity|].
  apply (Unmarshal_propagates_read_error
           (firstn 1 V7Steps) dstAddrStep (skipn 2 V7Steps)
           zeroRecord resetReader
           (zeroRecord <| SrcAddr := addr_192_168_1_1 |>) resetReaderAfterAddress);
    reflexivity.
Defined.

(** On the byte sources of this model the error of a failed decode is the
    error of the source: [ShortRead] at a clean end of stream, the fault of
    the source otherwise; and fewer than 52 bytes were pending. *)
Lemma Unmarshal_error_of_source r h r' h' e :
  Unmarshal r h = (r', h', Some e) ->
  e = readError h /\ h' = drained h /\ (List.length (pending h) < 52)%nat.
Proof.
  intros Hrun.
  destruct (Nat.le_gt_cases 52 (List.length (pending h))) as [Hlen|Hlen].
  - destruct (Unmarshal_enough r h Hlen) as [r0 Hr0]. congruence.
  - destruct (Unmarshal_short r h Hlen) as [r0 Hr0].
    rewrite Hr0 in Hrun. injection Hrun as _ <- <-. auto.
Qed.

(** ** The encode path *)

Section Codec.

Lemma packField_length f : Z.of_nat (List.length (packField f)) = fieldWidth f.
Proof. destruct f; reflexivity. Qed.

(** The packed form of a layout is as long as the sum of its widths. *)
Lemma structPack_length layout :
  Z.of_nat (List.length (structPack layout)) = structLen layout.
Proof.
  unfold structPack, structLen.
  induction layout as [|nf layout IH]; cbn [flat_map fold_right].
  - reflexivity.
  - rewrite length_app, Nat2Z.inj_add, packField_length, IH. reflexivity.
Qed.

Lemma Len_53 r : Len r = 53.
Proof. reflexivity. Qed.

Lemma invoke_receiver c r : snd (invoke c r) = r.
Proof. destruct c; reflexivity. Qed.

End Codec.

(** C3. For every record, [Len] is the length of the slice [Bytes]
    returns, and it is 53 whatever the fields hold. *)
Theorem Len_Bytes :
  forall r, Len r = Z.of_nat (List.length (Bytes r)) /\ Len r = 53.
Proof.
  intros r. split.
  - symmetry. apply structPack_length.
  - apply Len_53.
Qed.

(** C8. [Len] does not depend on the record: any two records have the same
    [Len]; and in any sequence of calls of [Len] and [Bytes] on one record,
    the receiver stays as it was and every call of [Len] returns the same
    value, whether or not [Bytes] was called before it. *)
Theorem Len_pure :
  (forall r1 r2, Len r1 = Len r2) /\
  (forall cs r,
     snd (invokeAll cs r) = r /\
     Forall (fun x => match x with
                      | LenResult n => n = Len r
                      | BytesResult b => b = Bytes r
                      end) (fst (invokeAll cs r))).
Proof.
  split.
  - intros r1 r2. rewrite !Len_53. reflexivity.
  - induction cs as [|c cs IH]; intros r.
    + split; [reflexivity | apply Forall_nil].
    + cbn [invokeAll]. destruct (invoke c r) as [x r1] eqn:Hc.
      assert (r1 = r) as -> by (rewrite <- (invoke_receiver c r), Hc; reflexivity).
      destruct (IH r) as [Hr Hxs].
      destruct (invokeAll cs r) as [xs r2]. cbn [fst snd] in *.
      split; [exact Hr|]. apply Forall_cons; [|exact Hxs].
      destruct c; injection Hc as <-; reflexivity.
Qed.

(** C4. Decoding the 53 bytes [Bytes] produces never fails, but it does
    not give the record back: the TCP flags of the receiver stay as they
    were, the byte of the encoded TCP flags is stored as the protocol number,
    and the last byte of the encoding is left in the source.  For the valid
    record that is zero but for TCP flags 1, decoding into a zero record
    gives protocol number 1 and TCP flags 0. *)
Theorem Unmarshal_Bytes_shifted :
  (forall R r,
     exists r',
       Unmarshal r (NewReader (Bytes R)) =
         (r', NewReader [ip3 (RouterSC R)], None) /\
       TCPFlags r' = TCPFlags r /\
       Protocol r' = TCPFlags R mod 2 ^ 8) /\
  valid_record tcpFlagsRecord = true /\
  Unmarshal zeroRecord (NewReader (Bytes tcpFlagsRecord)) =
    (zeroRecord <| Protocol := 1 |>, NewReader [Byte.x00], None) /\
  zeroRecord <| Protocol := 1 |> <> tcpFlagsRecord.
Proof.
  split; [|split; [|split]].
  - intros R r. eexists. split; [reflexivity|]. split; [reflexivity|].
    cbn [Protocol apply_update constant].
    rewrite byte.unsigned_of_Z. reflexivity.
  - reflexivity.
  - vm_compute. reflexivity.
  - discriminate.
Qed.

(** ** Rendering *)

Lemma append_empty_r (s : string) : (s ++ "")%string = s.
Proof.
  induction s as [|c s IH]; cbn [append]; [reflexivity | now rewrite IH].
Qed.

(** C7. [String] renders a record as source address, mask and port, an
    arrow, and destination address, mask and port, from the fields of the
    record alone; a record with source 192.168.1.1, mask 24, port 80 and
    destination 10.0.0.1, mask 16, port 443 renders as
    [192.168.1.1/24:80 -> 10.0.0.1/16:443]. *)
Theorem String_renders_flow :
  (forall r,
     String_ r =
       (LongIPv4_String (SrcAddr r) ++ "/" ++ decimal (SrcMask r) ++ ":" ++
        decimal (SrcPort r) ++ " -> " ++
        LongIPv4_String (DstAddr r) ++ "/" ++ decimal (DstMask r) ++ ":" ++
        decimal (DstPort r))%string) /\
  (forall r,
     SrcAddr r = addr_192_168_1_1 -> SrcMask r = 24 -> SrcPort r = 80 ->
     DstAddr r = addr_10_0_0_1 -> DstMask r = 16 -> DstPort r = 443 ->
     String_ r = "192.168.1.1/24:80 -> 10.0.0.1/16:443"%string).
Proof.
  split.
  - intros r.
    rewrite <- (append_empty_r (decimal (DstPort r))). reflexivity.
  - intros r Hsa Hsm Hsp Hda Hdm Hdp. unfold String_.
    rewrite Hsa, Hsm, Hsp, Hda, Hdm, Hdp. reflexivity.
Qed.

Lemma String_renders_flow_witness :
  (SrcAddr webFlow = addr_192_168_1_1 /\ SrcMask webFlow = 24 /\
   SrcPort webFlow = 80 /\ DstAddr webFlow = addr_10_0_0_1 /\
   DstMask webFlow = 16 /\ DstPort webFlow = 443) /\
  String_ webFlow = "192.168.1.1/24:80 -> 10.0.0.1/16:443"%string.
Proof.
  split; [repeat split|].
  apply (proj2 String_renders_flow webFlow); reflexivity.
Defined.

(** ** The header *)

(** C10. After [SetVersion(v)], [GetVersion] returns [v], and the flow
    sequence, the reserved field and the other fields of the embedded base
    header are as before. *)
Theorem SetVersion_GetVersion :
  forall (V1Fields : Type) (h : V7Header V1Fields) (v : Z),
    GetVersion (SetVersion h v) = v /\
    FlowSequence (SetVersion h v) = FlowSequence h /\
    Reserved (SetVersion h v) = Reserved h /\
    V1Rest (Base (SetVersion h v)) = V1Rest (Base h).
Proof.
  intros V1Fields h v. repeat split.
Qed.

(** * Further properties of the decode and encode paths *)

(** ** The return value and the bytes consumed *)

(** X1. What [Unmarshal] returns is decided by the source alone: [nil] when
    52 bytes or more are pending, the error of the source otherwise. *)
Theorem Unmarshal_returns :
  forall r h,
    snd (Unmarshal r h) =
      if (52 <=? List.length (pending h))%nat then None else Some (readError h).
Proof.
  intros r h. destruct (Nat.leb_spec 52 (List.length (pending h))) as [Hlen|Hlen].
  - rewrite (Unmarshal_success r h Hlen). reflexivity.
  - destruct (Unmarshal_short r h Hlen) as [r' Hr']. rewrite Hr'. reflexivity.
Qed.

(** X2. With 52 bytes or more pending, [Unmarshal] returns [nil], leaves
    in the source exactly the bytes after the 52nd, and the receiver holds:
    the three addresses from offsets 0, 4 and 8, the interface indices from
    12 and 14, the four counters from 16, 20, 24 and 28, the ports from 32
    and 34, the padding from 36, the protocol number from 38, the type of
    service from 39, the AS numbers from 40 and 42, the masks from 44 and 45,
    the flags from 46, the router address from 48, and the TCP flags it had
    before. *)
Theorem Unmarshal_reads_offsets :
  forall r h,
    (52 <= List.length (pending h))%nat ->
    Unmarshal r h =
      ({| SrcAddr := addrAt 0 (pending h);
          DstAddr := addrAt 4 (pending h);
          NextHop := addrAt 8 (pending h);
          Input := u16At 12 (pending h);
          Output := u16At 14 (pending h);
          Packets := u32At 16 (pending h);
          Octets := u32At 20 (pending h);
          First := u32At 24 (pending h);
          Last := u32At 28 (pending h);
          SrcPort := u16At 32 (pending h);
          DstPort := u16At 34 (pending h);
          Pad0 := u16At 36 (pending h);
          TCPFlags := TCPFlags r;
          Protocol := u8At 38 (pending h);
          ToS := u8At 39 (pending h);
          SrcAS := u16At 40 (pending h);
          DstAS := u16At 42 (pending h);
          SrcMask := u8At 44 (pending h);
          DstMask := u8At 45 (pending h);
          Flags := u16At 46 (pending h);
          RouterSC := addrAt 48 (pending h) |},
       {| pending := skipn 52 (pending h); fault := fault h |},
       None).
Proof.
  intros r h Hlen. exact (Unmarshal_success r h Hlen).
Qed.

Lemma Unmarshal_reads_offsets_witness :
  (52 <= List.length (pending (NewReader tcpFlagsStream)))%nat /\
  Unmarshal zeroRecord (NewReader tcpFlagsStream) =
    (zeroRecord <| Protocol := 255 |>, NewReader [Byte.x00], None).
Proof.
  split; [cbv; lia|].
  apply (Unmarshal_reads_offsets zeroRecord (NewReader tcpFlagsStream)).
  cbv; lia.
Defined.

(** ** Records one after the other *)

Section Framing.

Lemma unmarshalled_app r b rest :
  List.length b = 52%nat -> unmarshalled r (b ++ rest) = unmarshalled r b.
Proof.
  intros Hlen.
  do 52 (destruct b as [|? b]; [discriminate Hlen|]).
  destruct b; [reflexivity | discriminate Hlen].
Qed.

Lemma skipn_52_app (b rest : list byte) :
  List.length b = 52%nat -> skipn 52 (b ++ rest) = rest.
Proof.
  intros Hlen. rewrite <- Hlen. rewrite skipn_app, skipn_all, Nat.sub_diag.
  reflexivity.
Qed.

(** A decode sees the first 52 bytes only and leaves what follows them. *)
Lemma Unmarshal_frame r b rest f :
  List.length b = 52%nat ->
  Unmarshal r (mkReader (b ++ rest) f) = (unmarshalled r b, mkReader rest f, None).
Proof.
  intros Hlen. rewrite Unmarshal_success.
  - cbn [pending advanced fault].
    rewrite unmarshalled_app, skipn_52_app by exact Hlen. reflexivity.
  - cbn [pending]. rewrite length_app. lia.
Qed.

Lemma Unmarshal_exact r b :
  List.length b = 52%nat ->
  Unmarshal r (NewReader b) = (unmarshalled r b, NewReader [], None).
Proof.
  intros Hlen. pose proof (Unmarshal_frame r b [] None Hlen) as E.
  rewrite app_nil_r in E. exact E.
Qed.

End Framing.

(** X3. Two calls of [Unmarshal] on one source decode two records laid
    out back to back in 52 bytes each: the first call gives the record of the
    first 52 bytes alone, the second call, on the source the first one left,
    gives the record of the next 52 bytes alone, and what follows them stays
    in the source, however the source ends. *)
Theorem Unmarshal_twice :
  forall r1 r2 b1 b2 rest f,
    List.length b1 = 52%nat ->
    List.length b2 = 52%nat ->
    exists h1,
      Unmarshal r1 (mkReader (b1 ++ b2 ++ rest) f) =
        (fst (fst (Unmarshal r1 (NewReader b1))), h1, None) /\
      Unmarshal r2 h1 =
        (fst (fst (Unmarshal r2 (NewReader b2))), mkReader rest f, None).
Proof.
  intros r1 r2 b1 b2 rest f H1 H2.
  exists (mkReader (b2 ++ rest) f).
  rewrite !Unmarshal_frame, !Unmarshal_exact by assumption.
  split; reflexivity.
Qed.

Lemma Unmarshal_twice_witness :
  (List.length (repeat Byte.x01 52) = 52%nat /\
   List.length (repeat Byte.x02 52) = 52%nat) /\
  exists h1,
    Unmarshal zeroRecord
      (mkReader (repeat Byte.x01 52 ++ repeat Byte.x02 52 ++ [Byte.xff]) None) =
      (fst (fst (Unmarshal zeroRecord (NewReader (repeat Byte.x01 52)))), h1, None) /\
    Unmarshal zeroRecord h1 =
      (fst (fst (Unmarshal zeroRecord (NewReader (repeat Byte.x02 52)))),
       mkReader [Byte.xff] None, None).
Proof.
  split; [split; reflexivity|].
  apply (Unmarshal_twice zeroRecord zeroRecord
           (repeat Byte.x01 52) (repeat Byte.x02 52) [Byte.xff] None);
    reflexivity.
Defined.

(** X4. The receiver has no part in a decode but for its TCP flags: the
    value returned and the source left behind are the same for any two
    receivers, and after a decode that returned [nil] the two records differ
    at most in the TCP flags, each keeping its own. *)
Theorem Unmarshal_receiver_independent :
  forall r1 r2 h,
    snd (Unmarshal r1 h) = snd (Unmarshal r2 h) /\
    snd (fst (Unmarshal r1 h)) = snd (fst (Unmarshal r2 h)) /\
    (snd (Unmarshal r1 h) = None ->
     fst (fst (Unmarshal r1 h)) =
       (fst (fst (Unmarshal r2 h))) <| TCPFlags := TCPFlags r1 |>).
Proof.
  intros r1 r2 h.
  destruct (Nat.le_gt_cases 52 (List.length (pending h))) as [Hlen|Hlen].
  - rewrite !(Unmarshal_success _ h Hlen). repeat split.
  - destruct (Unmarshal_short r1 h Hlen) as [r1' H1].
    destruct (Unmarshal_short r2 h Hlen) as [r2' H2].
    rewrite H1, H2. repeat split. discriminate.
Qed.

Lemma Unmarshal_receiver_independent_witness :
  snd (Unmarshal tcpFlagsRecord (NewReader tcpFlagsStream)) = None /\
  fst (fst (Unmarshal tcpFlagsRecord (NewReader tcpFlagsStream))) =
    (fst (fst (Unmarshal webFlow (NewReader tcpFlagsStream))))
      <| TCPFlags := TCPFlags tcpFlagsRecord |>.
Proof.
  split; [reflexivity|].
  apply (Unmarshal_receiver_independent tcpFlagsRecord webFlow
           (NewReader tcpFlagsStream)).
  reflexivity.
Defined.

(** ** Decoding and encoding together *)

Section Reencoding.

Lemma byte_of_Z_eq (b : byte) z :
  byte.unsigned b = z mod 2 ^ 8 -> byte.of_Z z = b.
Proof.
  intros Hz. apply byte.unsigned_inj. rewrite byte.unsigned_of_Z.
  unfold byte.wrap. symmetry. exact Hz.
Qed.

(** The bits of a sum of bytes shifted to their places, byte by byte. *)
Ltac byte_bits :=
  repeat match goal with
         | |- context [byte.unsigned ?b] =>
             let x := fresh "x" in
             let Hx := fresh "Hx" in
             pose proof (byte.unsigned_range b) as Hx;
             set (x := byte.unsigned b) in *;
             rewrite <- (Z.mod_small x (2 ^ 8)) by exact Hx;
             clearbody x
         end;
  rewrite <- !Z.land_ones by lia; Z.bitblast.

Lemma putUint16_beUint16 b0 b1 : putUint16 (beUint16 b0 b1) = [b0; b1].
Proof.
  unfold putUint16, beUint16.
  repeat f_equal; apply byte_of_Z_eq; byte_bits.
Qed.

Lemma putUint32_beUint32 b0 b1 b2 b3 :
  putUint32 (beUint32 b0 b1 b2 b3) = [b0; b1; b2; b3].
Proof.
  unfold putUint32, beUint32.
  repeat f_equal; apply byte_of_Z_eq; byte_bits.
Qed.

End Reencoding.

(** X5. Encoding a record that was just decoded does not give back the
    bytes that were read: [Bytes] gives the first 38 of them, then one byte
    holding the TCP flags the receiver had before the decode, then the other
    14. *)
Theorem Bytes_after_Unmarshal :
  forall r b rest f,
    List.length b = 52%nat ->
    Bytes (fst (fst (Unmarshal r (mkReader (b ++ rest) f)))) =
      firstn 38 b ++ [byte.of_Z (TCPFlags r)] ++ skipn 38 b.
Proof.
  intros r b rest f Hlen. rewrite (Unmarshal_frame r b rest f Hlen).
  do 52 (destruct b as [|? b]; [discriminate Hlen|]).
  destruct b; [|discriminate Hlen].
  cbn [fst Bytes structPack V7FlowRecord_layout flat_map snd packField
       unmarshalled u8At u16At u32At addrAt nth Nat.add firstn skipn
       SrcAddr DstAddr NextHop Input Output Packets Octets First Last SrcPort
       DstPort Pad0 TCPFlags Protocol ToS SrcAS DstAS SrcMask DstMask Flags
       RouterSC ip0 ip1 ip2 ip3].
  unfold u8At, u16At, u32At. cbn [nth Nat.add].
  rewrite !putUint16_beUint16, !putUint32_beUint32, !byte.of_Z_unsigned.
  reflexivity.
Qed.

Lemma Bytes_after_Unmarshal_witness :
  List.length (repeat Byte.x01 52) = 52%nat /\
  Bytes (fst (fst (Unmarshal tcpFlagsRecord
                     (mkReader (repeat Byte.x01 52 ++ [Byte.xff]) None)))) =
    repeat Byte.x01 53.
Proof.
  split; [reflexivity|].
  apply (Bytes_after_Unmarshal tcpFlagsRecord (repeat Byte.x01 52) [Byte.xff] None).
  reflexivity.
Defined.

(** X6. Decoding the encoding of a valid record gives back its three
    addresses, interface indices, counters, ports and padding; the TCP flags
    of the record come back as the protocol number and its protocol number as
    the type of service. *)
Theorem Unmarshal_Bytes_fields :
  forall R r,
    valid_record R = true ->
    exists r',
      Unmarshal r (NewReader (Bytes R)) =
        (r', NewReader [ip3 (RouterSC R)], None) /\
      SrcAddr r' = SrcAddr R /\ DstAddr r' = DstAddr R /\
      NextHop r' = NextHop R /\ Input r' = Input R /\ Output r' = Output R /\
      Packets r' = Packets R /\ Octets r' = Octets R /\ First r' = First R /\
      Last r' = Last R /\ SrcPort r' = SrcPort R /\ DstPort r' = DstPort R /\
      Pad0 r' = Pad0 R /\ Protocol r' = TCPFlags R /\ ToS r' = Protocol R.
Proof.
  intros R r Hvalid.
  exists (unmarshalled r (Bytes R)). split.
  - rewrite (Unmarshal_success r (NewReader (Bytes R))) by (cbv; lia).
    reflexivity.
  - pose proof (wireRecord_Bytes R Hvalid) as Hwire.
    repeat split;
      match goal with
      | |- _ = ?get R =>
          transitivity (get (wireRecord (Bytes R)));
          [reflexivity | rewrite Hwire; reflexivity]
      end.
Qed.

Lemma Unmarshal_Bytes_fields_witness :
  valid_record webFlow = true /\
  exists r',
    Unmarshal zeroRecord (NewReader (Bytes webFlow)) =
      (r', NewReader [ip3 (RouterSC webFlow)], None) /\
    SrcAddr r' = SrcAddr webFlow /\ DstAddr r' = DstAddr webFlow /\
    NextHop r' = NextHop webFlow /\ Input r' = Input webFlow /\
    Output r' = Output webFlow /\ Packets r' = Packets webFlow /\
    Octets r' = Octets webFlow /\ First r' = First webFlow /\
    Last r' = Last webFlow /\ SrcPort r' = SrcPort webFlow /\
    DstPort r' = DstPort webFlow /\ Pad0 r' = Pad0 webFlow /\
    Protocol r' = TCPFlags webFlow /\ ToS r' = Protocol webFlow.
Proof.
  split; [reflexivity|].
  apply (Unmarshal_Bytes_fields webFlow zeroRecord). reflexivity.
Defined.

(** X7. [Len] is not the number of bytes a decode takes from the source:
    a decode that returns [nil] consumes one byte less than the [Len] of the
    record it filled. *)
Theorem Unmarshal_consumes_Len_less_one :
  forall r h,
    (52 <= List.length (pending h))%nat ->
    Z.of_nat (List.length (pending h)) -
      Z.of_nat (List.length (pending (snd (fst (Unmarshal r h))))) =
    Len (fst (fst (Unmarshal r h))) - 1.
Proof.
  intros r h Hlen. rewrite (Unmarshal_success r h Hlen).
  cbn [fst snd advanced pending]. rewrite Len_53, length_skipn. lia.
Qed.

Lemma Unmarshal_consumes_Len_less_one_witness :
  (52 <= List.length (pending (NewReader tcpFlagsStream)))%nat /\
  Z.of_nat (List.length (pending (NewReader tcpFlagsStream))) -
    Z.of_nat (List.length
                (pending (snd (fst (Unmarshal zeroRecord (NewReader tcpFlagsStream)))))) =
  Len (fst (fst (Unmarshal zeroRecord (NewReader tcpFlagsStream)))) - 1.
Proof.
  split; [cbv; lia|].
  apply (Unmarshal_consumes_Len_less_one zeroRecord (NewReader tcpFlagsStream)).
  cbv; lia.
Defined.

(** X8. Two valid records that differ have different encodings. *)
Theorem Bytes_injective :
  forall R1 R2,
    valid_record R1 = true ->
    valid_record R2 = true ->
    R1 <> R2 ->
    Bytes R1 <> Bytes R2.
Proof.
  intros R1 R2 H1 H2 Hne Heq. apply Hne.
  rewrite <- (wireRecord_Bytes R1 H1), <- (wireRecord_Bytes R2 H2), Heq.
  reflexivity.
Qed.

Lemma Bytes_injective_witness :
  (valid_record zeroRecord = true /\ valid_record tcpFlagsRecord = true /\
   zeroRecord <> tcpFlagsRecord) /\
  Bytes zeroRecord <> Bytes tcpFlagsRecord.
Proof.
  split; [repeat split; discriminate|].
  apply (Bytes_injective zeroRecord tcpFlagsRecord);
    [reflexivity | reflexivity | discriminate].
Defined.

(** ** The header *)

(** X9. [SetVersion] overwrites: after two calls the header is as after
    the second alone, and setting the version the header already has leaves
    the header as it was. *)
Theorem SetVersion_overwrites :
  forall (V1Fields : Type) (h : V7Header V1Fields) (v w : Z),
    SetVersion (SetVersion h v) w = SetVersion h w /\
    SetVersion h (GetVersion h) = h.
Proof.
  intros V1Fields [[version rest] sequence reserved] v w.
  split; reflexivity.
Qed.

